(** * Xiaomi account authentication (src/xiaomi/auth.py)

    A shallow embedding of [XiaomiAuth]: its constructor, [login] and
    [get_devices].  The cloud client [MiCloud] it drives is an external
    library, so its constructor and its two methods are the fields of a
    type class; everything the module itself does around them (the
    truthiness tests, the fallback for [passToken], the token dictionary,
    the [try]/[except] blocks, the logger calls) is written out. *)

From stdpp Require Import gmap strings list fin_maps pretty.
From Stdlib Require Import ZArith.

Local Open Scope string_scope.

(** ** Python values *)

(** The values the module handles directly: [None], booleans, integers and
    strings. *)
Inductive PyVal : Type :=
  | PyNone
  | PyBool (b : bool)
  | PyInt (z : Z)
  | PyStr (s : string).

(** [bool(v)]: what [if v], [not v] and [v or w] test. *)
Definition truthy (v : PyVal) : bool :=
  match v with
  | PyNone => false
  | PyBool b => b
  | PyInt z => negb (z =? 0)%Z
  | PyStr s => negb (String.eqb s "")
  end.

(** [v or w]. *)
Definition py_or (v w : PyVal) : PyVal := if truthy v then v else w.

(** [str(v)], which is also what an f-string inserts for [{v}]. *)
Definition py_str (v : PyVal) : string :=
  match v with
  | PyNone => "None"
  | PyBool true => "True"
  | PyBool false => "False"
  | PyInt z => pretty z
  | PyStr s => s
  end.

(** [d.get(k)] on a dictionary of strings: the value, or [None]. *)
Definition dict_get (d : gmap string string) (k : string) : PyVal :=
  match d !! k with
  | Some v => PyStr v
  | None => PyNone
  end.

(** ** Exceptions *)

(** [except Exception] catches the instances of [Exception]; the other
    [BaseException]s ([KeyboardInterrupt], [SystemExit]) pass through it. *)
Inductive ExcKind : Type := ExceptionInstance | BaseExceptionOnly.

Record PyExc : Type := mkExc {
  exc_kind : ExcKind;
  exc_type : string;
  exc_message : string
}.

(** [Exception(msg)]. *)
Definition Exception (msg : string) : PyExc :=
  mkExc ExceptionInstance "Exception" msg.

Definition is_Exception (e : PyExc) : bool :=
  match exc_kind e with
  | ExceptionInstance => true
  | BaseExceptionOnly => false
  end.

(** How a call ends. *)
Inductive outcome (A : Type) : Type :=
  | Returned (a : A)
  | Raised (e : PyExc).
Arguments Returned {A} a.
Arguments Raised {A} e.

(** ** The cloud client object *)

(** [mc.session]: the attribute may be missing ([hasattr] is false), hold
    [None], or hold a session object, which is always truthy.  Of a session
    the module reads [session.cookies.get_dict()] only, so a session is
    represented by that dictionary. *)
Inductive SessionAttr : Type :=
  | NoSessionAttr
  | SessionNone
  | SessionObj (cookies_dict : gmap string string).

Record MiCloud : Type := mkMiCloud {
  mc_username : string;
  mc_password : string;
  user_id : PyVal;
  service_token : PyVal;
  ssecurity : PyVal;
  session : SessionAttr
}.

(** The external library: the constructor [MiCloud(username, password)],
    which returns a client or raises, and the methods [login()] and
    [get_devices(country=...)], each of which returns or raises and may
    change the client object.  [get_devices] returns a list of devices or
    [None]. *)
Class Provider (Device : Type) : Type := {
  MiCloud_new : string -> string -> outcome MiCloud;
  MiCloud_login : MiCloud -> outcome PyVal * MiCloud;
  MiCloud_get_devices :
    MiCloud -> string -> outcome (option (list Device)) * MiCloud
}.

(** ** The module's state *)

Record XiaomiAuth : Type := mkXiaomiAuth {
  username : string;
  password : string;
  region : string;
  mc : option MiCloud
}.

Inductive LogLevel : Type := INFO | ERROR.

Inductive Call : Type :=
  | CallMiCloud (u p : string)
  | CallLogin
  | CallGetDevices (country : string).

(** The instance, what [_LOGGER] has received, and the calls made on the
    external library, both oldest first. *)
Record World : Type := mkWorld {
  this : XiaomiAuth;
  logged : list (LogLevel * string);
  calls : list Call
}.

(** ** A state and exception monad *)

Definition M (A : Type) : Type := World -> outcome A * World.

Definition ret {A} (a : A) : M A := fun w => (Returned a, w).

Definition raise {A} (e : PyExc) : M A := fun w => (Raised e, w).

Definition bind {A B} (m : M A) (k : A -> M B) : M B :=
  fun w =>
    match m w with
    | (Returned a, w') => k a w'
    | (Raised e, w') => (Raised e, w')
    end.

Notation "x <~ m ;; k" := (bind m (fun x => k))
  (at level 100, m at level 99, k at level 200, right associativity).
Notation "m ;> k" := (bind m (fun _ => k))
  (at level 100, k at level 200, right associativity).

(** [try: body  except Exception as e: handler e]. *)
Definition try_except {A} (body : M A) (handler : PyExc -> M A) : M A :=
  fun w =>
    match body w with
    | (Returned a, w') => (Returned a, w')
    | (Raised e, w') =>
        if is_Exception e then handler e w' else (Raised e, w')
    end.

Definition get_self : M XiaomiAuth := fun w => (Returned (this w), w).

Definition set_mc (m : option MiCloud) : M unit :=
  fun w =>
    (Returned tt,
     mkWorld (mkXiaomiAuth (username (this w)) (password (this w))
                           (region (this w)) m)
             (logged w) (calls w)).

Definition log (lvl : LogLevel) (msg : string) : M unit :=
  fun w => (Returned tt, mkWorld (this w) (logged w ++ [(lvl, msg)]) (calls w)).

Definition record_call (c : Call) : M unit :=
  fun w => (Returned tt, mkWorld (this w) (logged w) (calls w ++ [c])).

(** ** [XiaomiAuth.__init__] *)

Definition init (username password : string) (region : option string)
  : XiaomiAuth :=
  mkXiaomiAuth username password (default "cn" region) None.

Definition fresh (self : XiaomiAuth) : World := mkWorld self [] [].

(** ** Helpers for the attribute reads and the truthiness idioms *)

Global Instance PyVal_inhabited : Inhabited PyVal := populate PyNone.

(** [str(e)] of an exception is its message. *)
Definition exc_str (e : PyExc) : string := exc_message e.

(** What reading attribute [attr] of [None] raises. *)
Definition AttributeError_None (attr : string) : PyExc :=
  mkExc ExceptionInstance "AttributeError"
        ("'NoneType' object has no attribute '" +:+ attr +:+ "'").

(** The object [self.mc] refers to, for reading [self.mc.attr]. *)
Definition the_mc (attr : string) : M MiCloud :=
  fun w =>
    match mc (this w) with
    | Some m => (Returned m, w)
    | None => (Raised (AttributeError_None attr), w)
    end.

(** [country or self.region], for [country : Optional[str]]. *)
Definition country_or (country : option string) (region : string) : string :=
  match country with
  | Some c => if truthy (PyStr c) then c else region
  | None => region
  end.

(** [bool(devices)] for a list or [None]. *)
Definition devices_truthy {Device} (devices : option (list Device)) : bool :=
  match devices with
  | Some (_ :: _) => true
  | _ => false
  end.

(** [devices or []]. *)
Definition devices_or_empty {Device} (devices : option (list Device))
  : list Device :=
  match devices with
  | Some l => if devices_truthy devices then l else []
  | None => []
  end.

(** [len(devices) if devices else 0]. *)
Definition devices_count {Device} (devices : option (list Device)) : Z :=
  match devices with
  | Some l => if devices_truthy devices then Z.of_nat (length l) else 0%Z
  | None => 0%Z
  end.

(** ** [XiaomiAuth.login], lines 51 to 70: the token dictionary *)

Definition token_data (m : MiCloud) : gmap string PyVal :=
  let user_id := user_id m in
  let service_token := service_token m in
  let ssecurity := ssecurity m in
  let pass_token := PyNone in
  let pass_token :=
    match session m with
    | SessionObj cookies =>
        py_or (dict_get cookies "passToken") (dict_get cookies "serviceToken")
    | SessionNone | NoSessionAttr => pass_token
    end in
  let pass_token :=
    if negb (truthy pass_token) then service_token else pass_token in
  {[ "userId" := if truthy user_id then PyStr (py_str user_id) else PyStr "";
     "passToken" := if truthy pass_token then pass_token else PyStr "";
     "ssecurity" := if truthy ssecurity then ssecurity else PyStr "";
     "serviceToken" := if truthy service_token then service_token
                       else PyStr "" ]}.

Section Auth.
Context {Device : Type} `{!Provider Device}.

(** [MiCloud(username, password)]. *)
Definition new_MiCloud (u p : string) : M MiCloud :=
  record_call (CallMiCloud u p) ;>
  match MiCloud_new u p with
  | Returned m => ret m
  | Raised e => raise e
  end.

(** [self.mc.login()]: the method runs on the object [self.mc] refers to
    and leaves its changes there, whether it returns or raises. *)
Definition mc_login : M PyVal :=
  m <~ the_mc "login" ;;
  record_call CallLogin ;>
  let '(r, m') := MiCloud_login m in
  set_mc (Some m') ;>
  match r with
  | Returned v => ret v
  | Raised e => raise e
  end.

(** [self.mc.get_devices(country=country)]. *)
Definition mc_get_devices (country : string) : M (option (list Device)) :=
  m <~ the_mc "get_devices" ;;
  record_call (CallGetDevices country) ;>
  let '(r, m') := MiCloud_get_devices m country in
  set_mc (Some m') ;>
  match r with
  | Returned v => ret v
  | Raised e => raise e
  end.

(** ** [XiaomiAuth.login] *)

Definition login : M (gmap string PyVal) :=
  try_except
    (self <~ get_self ;;
     log INFO ("Attempting login for " +:+ username self +:+
               " in region " +:+ region self) ;>
     m <~ new_MiCloud (username self) (password self) ;;
     set_mc (Some m) ;>
     login_result <~ mc_login ;;
     if negb (truthy login_result) then
       raise (Exception "Login failed - no result returned")
     else
       log INFO "Login successful!" ;>
       m <~ the_mc "user_id" ;;
       let token_data := token_data m in
       log INFO ("Retrieved tokens - userId: " +:+
                 py_str (token_data !!! "userId")) ;>
       ret token_data)
    (fun e =>
       log ERROR ("Login failed: " +:+ exc_str e) ;>
       raise e).

(** ** [XiaomiAuth.get_devices] *)

Definition get_devices (country : option string) : M (list Device) :=
  self <~ get_self ;;
  match mc self with
  | None => raise (Exception "Not logged in - call login() first")
  | Some _ =>
      let country := country_or country (region self) in
      try_except
        (devices <~ mc_get_devices country ;;
         log INFO ("Retrieved " +:+ pretty (devices_count devices) +:+
                   " devices") ;>
         ret (devices_or_empty devices))
        (fun e =>
           log ERROR ("Failed to get devices: " +:+ exc_str e) ;>
           ret [])
  end.

End Auth.

(** ** Concrete cloud clients *)

(** A client after [MiCloud.__init__]: nothing known yet. *)
Definition blank_client (u p : string) : MiCloud :=
  mkMiCloud u p PyNone PyNone PyNone SessionNone.

(** A cloud whose [login()] ends as [login_out] and leaves the client as
    [after] says, and whose [get_devices()] ends as [devices_out]. *)
Definition scripted (login_out : outcome PyVal) (after : MiCloud -> MiCloud)
    (devices_out : outcome (option (list string))) : Provider string :=
  {| MiCloud_new := fun u p => Returned (blank_client u p);
     MiCloud_login := fun m => (login_out, after m);
     MiCloud_get_devices := fun m _ => (devices_out, m) |}.

Definition signed_in (uid st ss : PyVal) (s : SessionAttr) (m : MiCloud)
  : MiCloud :=
  mkMiCloud (mc_username m) (mc_password m) uid st ss s.

(** Login succeeds; user 12345 with a [passToken] cookie; one device. *)
Definition cloud_ok : Provider string :=
  scripted (Returned (PyBool true))
           (signed_in (PyInt 12345) (PyStr "svc-abc") (PyStr "sec-xyz")
                      (SessionObj {[ "passToken" := "cookie-pt" ]}))
           (Returned (Some ["scale"])).

(** Login succeeds, empty cookie jar. *)
Definition cloud_no_cookies : Provider string :=
  scripted (Returned (PyBool true))
           (signed_in (PyInt 12345) (PyStr "svc-abc") (PyStr "sec-xyz")
                      (SessionObj ∅))
           (Returned (Some [])).

(** Login succeeds with no service token on the client, but both cookies. *)
Definition cloud_both_cookies : Provider string :=
  scripted (Returned (PyBool true))
           (signed_in (PyInt 12345) PyNone (PyStr "sec-xyz")
                      (SessionObj {[ "passToken" := "pt";
                                     "serviceToken" := "st" ]}))
           (Returned None).

(** Login succeeds with no service token on the client and only the
    [serviceToken] cookie. *)
Definition cloud_service_cookie : Provider string :=
  scripted (Returned (PyBool true))
           (signed_in (PyInt 12345) PyNone (PyStr "sec-xyz")
                      (SessionObj {[ "serviceToken" := "st" ]}))
           (Returned None).

(** Login succeeds for the user whose id is the integer 0. *)
Definition cloud_user_zero : Provider string :=
  scripted (Returned (PyBool true))
           (signed_in (PyInt 0) (PyStr "svc-abc") (PyStr "sec-xyz")
                      SessionNone)
           (Returned None).

(** [login()] reports failure by returning [False]. *)
Definition cloud_denied : Provider string :=
  scripted (Returned (PyBool false)) id (Returned None).

Definition ConnectionError : PyExc :=
  mkExc ExceptionInstance "ConnectionError" "network unreachable".

(** Every call on the cloud raises. *)
Definition cloud_down : Provider string :=
  scripted (Raised ConnectionError) id (Raised ConnectionError).

(** Login works, device retrieval raises. *)
Definition cloud_devices_down : Provider string :=
  scripted (Returned (PyBool true))
           (signed_in (PyInt 12345) (PyStr "svc-abc") (PyStr "sec-xyz")
                      (SessionObj ∅))
           (Raised ConnectionError).

Definition KeyboardInterrupt : PyExc :=
  mkExc BaseExceptionOnly "KeyboardInterrupt" "".

(** The user interrupts every call on the cloud. *)
Definition cloud_interrupted : Provider string :=
  scripted (Raised KeyboardInterrupt) id (Raised KeyboardInterrupt).

(** Login works, the user interrupts device retrieval. *)
Definition cloud_devices_interrupted : Provider string :=
  scripted (Returned (PyBool true))
           (signed_in (PyInt 12345) (PyStr "svc-abc") (PyStr "sec-xyz")
                      (SessionObj ∅))
           (Raised KeyboardInterrupt).

(** Login works; two devices. *)
Definition cloud_two_devices : Provider string :=
  scripted (Returned (PyBool true))
           (signed_in (PyInt 12345) (PyStr "svc-abc") (PyStr "sec-xyz")
                      (SessionObj {[ "passToken" := "cookie-pt" ]}))
           (Returned (Some ["scale"; "band"])).

(** The constructor of the client raises. *)
Definition cloud_no_client : Provider string :=
  {| MiCloud_new := fun _ _ => Raised ConnectionError;
     MiCloud_login := fun m => (Returned (PyBool true), m);
     MiCloud_get_devices := fun m _ => (Returned None, m) |}.

Definition alice : XiaomiAuth := init "alice" "secret" None.

(** Bob gives his region. *)
Definition bob : XiaomiAuth := init "bob" "hunter2" (Some "de").

(** ** The fallback chain as the specification words it *)

(** The cookie mapping a client exposes, if it exposes one. *)
Definition cookie_mapping (m : MiCloud) : option (gmap string string) :=
  match session m with
  | SessionObj cookies => Some cookies
  | SessionNone | NoSessionAttr => None
  end.

(** The value under [k] in the cookie mapping, if present and non-empty. *)
Definition present_nonempty (cm : option (gmap string string)) (k : string)
  : option string :=
  match cm with
  | Some cookies =>
      match cookies !! k with
      | Some v => if decide (v = "") then None else Some v
      | None => None
      end
  | None => None
  end.

(** Ordered fallback, first match wins: the [passToken] cookie, else the
    [serviceToken] cookie, else the client's service token, else [""]. *)
Definition passToken_chain (cm : option (gmap string string))
    (service_token : PyVal) : PyVal :=
  match present_nonempty cm "passToken" with
  | Some v => PyStr v
  | None =>
      match present_nonempty cm "serviceToken" with
      | Some v => PyStr v
      | None => if truthy service_token then service_token else PyStr ""
      end
  end.

(** A provider field that is a string or [None]. *)
Definition str_or_None (v : PyVal) : Prop :=
  v = PyNone ∨ ∃ s, v = PyStr s.

(** The four keys of the token dictionary. *)
Definition token_keys : list string :=
  ["userId"; "passToken"; "ssecurity"; "serviceToken"].

(** ** The world after a call of [login] *)

Section LoginWorld.
Context {Device : Type} `{!Provider Device}.

(** How the constructor call of [login] ends: the client built from the
    instance's credentials, or the exception raised. *)
Definition new_client (w : World) : outcome MiCloud :=
  MiCloud_new (username (this w)) (password (this w)).

(** The world [login] leaves when the client ends as [m']: [self.mc] is
    that client, the log has grown by the attempt line and [lines], and
    the cloud has seen one constructor call and one [login()] call. *)
Definition after_login (w : World) (m' : MiCloud)
    (lines : list (LogLevel * string)) : World :=
  mkWorld
    (mkXiaomiAuth (username (this w)) (password (this w)) (region (this w))
                  (Some m'))
    (logged w ++
     (INFO, "Attempting login for " +:+ username (this w) +:+
            " in region " +:+ region (this w)) :: lines)
    (calls w ++ [CallMiCloud (username (this w)) (password (this w));
                 CallLogin]).

(** The world [login] leaves when the constructor raises: [self.mc] is
    untouched, the log has grown by the attempt line and [lines], and the
    cloud has seen the constructor call only. *)
Definition after_failed_constructor (w : World)
    (lines : list (LogLevel * string)) : World :=
  mkWorld
    (this w)
    (logged w ++
     (INFO, "Attempting login for " +:+ username (this w) +:+
            " in region " +:+ region (this w)) :: lines)
    (calls w ++ [CallMiCloud (username (this w)) (password (this w))]).

(** The world [get_devices] leaves once it has called the cloud. *)
Definition after_devices (w : World) (m' : MiCloud) (country : string)
    (line : LogLevel * string) : World :=
  mkWorld
    (mkXiaomiAuth (username (this w)) (password (this w)) (region (this w))
                  (Some m'))
    (logged w ++ [line])
    (calls w ++ [CallGetDevices country]).
End LoginWorld.

(** * Properties *)

Lemma truthy_PyStr s : truthy (PyStr s) = true ↔ s ≠ "".
Proof.
  simpl. rewrite negb_true_iff. split.
  - intros E ->. by rewrite String.eqb_refl in E.
  - intros N. by apply String.eqb_neq.
Qed.

Lemma eqb_empty_false (v : string) : v ≠ "" → String.eqb v "" = false.
Proof. by intros N; apply String.eqb_neq. Qed.

Lemma truthy_not_empty v : truthy v = true → v ≠ PyStr "".
Proof. by intros E ->. Qed.

(** Reads an entry of a dictionary written as a literal. *)
Ltac dict_literal_lookup :=
  cbv zeta;
  repeat (rewrite lookup_insert_ne; [|discriminate]);
  first [rewrite lookup_insert_eq | rewrite lookup_singleton_eq].

(** The four entries of the token dictionary. *)
Section TokenData.
Variable m : MiCloud.

Lemma token_data_userId :
  token_data m !! "userId" =
  Some (if truthy (user_id m) then PyStr (py_str (user_id m))
        else PyStr "").
Proof. unfold token_data. by dict_literal_lookup. Qed.

Lemma token_data_ssecurity :
  token_data m !! "ssecurity" =
  Some (if truthy (ssecurity m) then ssecurity m else PyStr "").
Proof. unfold token_data. by dict_literal_lookup. Qed.

Lemma token_data_serviceToken :
  token_data m !! "serviceToken" =
  Some (if truthy (service_token m) then service_token m else PyStr "").
Proof. unfold token_data. by dict_literal_lookup. Qed.

Lemma token_data_passToken :
  token_data m !! "passToken" =
  Some (passToken_chain (cookie_mapping m) (service_token m)).
Proof.
  unfold token_data, passToken_chain, cookie_mapping.
  dict_literal_lookup. f_equal.
  destruct (session m) as [| |cookies]; simpl;
    [by destruct (truthy (service_token m)) eqn:E; rewrite ?E..|].
  unfold py_or, dict_get.
  destruct (cookies !! "passToken") as [p|];
    destruct (cookies !! "serviceToken") as [s|];
    repeat case_decide; subst; simpl;
    repeat (rewrite eqb_empty_false by done; simpl);
    try done;
    by destruct (truthy (service_token m)) eqn:E; rewrite ?E.
Qed.

Lemma token_data_dom :
  dom (token_data m) = list_to_set token_keys.
Proof. unfold token_data, token_keys. rewrite !dom_insert_L. set_solver. Qed.
End TokenData.

(** ** What [login] does, by how the cloud's [login()] ends *)

Arguments token_data : simpl never.

Section LoginCases.
Context {Device : Type} `{!Provider Device}.

Ltac run_login C :=
  unfold after_login, after_failed_constructor, new_client in *;
  cbv beta iota zeta delta
    [login try_except bind get_self log new_MiCloud record_call set_mc
     mc_login the_mc ret raise];
  simpl; rewrite C; simpl.

Lemma login_returns w m0 r m' :
  new_client w = Returned m0 →
  MiCloud_login m0 = (Returned r, m') →
  truthy r = true →
  login w =
    (Returned (token_data m'),
     after_login w m'
       [(INFO, "Login successful!");
        (INFO, "Retrieved tokens - userId: " +:+
               py_str (token_data m' !!! "userId"))]).
Proof.
  intros C E T. run_login C. rewrite E. simpl. rewrite T. simpl.
  by rewrite <-!app_assoc.
Qed.

Lemma login_no_result w m0 r m' :
  new_client w = Returned m0 →
  MiCloud_login m0 = (Returned r, m') →
  truthy r = false →
  login w =
    (Raised (Exception "Login failed - no result returned"),
     after_login w m'
       [(ERROR, "Login failed: Login failed - no result returned")]).
Proof.
  intros C E T. run_login C. rewrite E. simpl. rewrite T. simpl.
  by rewrite <-!app_assoc.
Qed.

Lemma login_raises w m0 e m' :
  new_client w = Returned m0 →
  MiCloud_login m0 = (Raised e, m') →
  login w =
    (Raised e,
     after_login w m'
       (if is_Exception e then [(ERROR, "Login failed: " +:+ exc_str e)]
        else [])).
Proof.
  intros C E. run_login C. rewrite E. simpl.
  destruct (is_Exception e); simpl; by rewrite <-?app_assoc.
Qed.

(** When the constructor raises, [login] raises the same exception without
    touching [self.mc] and without calling [login()]. *)
Lemma login_constructor_raises w e :
  new_client w = Raised e →
  login w =
    (Raised e,
     after_failed_constructor w
       (if is_Exception e then [(ERROR, "Login failed: " +:+ exc_str e)]
        else [])).
Proof.
  intros C. run_login C.
  destruct (is_Exception e); simpl; rewrite <-?app_assoc; simpl;
    by destruct w as [[] ? ?].
Qed.

(** Once the constructor has returned, [login] leaves a client in
    [self.mc], whatever the cloud's [login()] does. *)
Lemma login_sets_mc w m0 :
  new_client w = Returned m0 →
  ∃ lines, snd (login w) = after_login w (snd (MiCloud_login m0)) lines.
Proof.
  intros C. destruct (MiCloud_login m0) as [[r|e] m'] eqn:E.
  - destruct (truthy r) eqn:T.
    + rewrite (login_returns _ _ _ _ C E T). by eexists.
    + rewrite (login_no_result _ _ _ _ C E T). by eexists.
  - rewrite (login_raises _ _ _ _ C E). by eexists.
Qed.
End LoginCases.

(** ** What [get_devices] does, by the state of [self.mc] and by how the
    cloud's [get_devices()] ends *)

Section GetDevicesCases.
Context {Device : Type} `{!Provider Device}.

Ltac run_get_devices M E :=
  cbv beta iota zeta delta
    [get_devices try_except bind get_self log record_call set_mc
     mc_get_devices the_mc ret raise];
  simpl; rewrite M; simpl; rewrite ?M; simpl; rewrite ?E; simpl.

Lemma get_devices_no_client w country :
  mc (this w) = None →
  get_devices country w =
    (Raised (Exception "Not logged in - call login() first"), w).
Proof. intros M. run_get_devices M M. reflexivity. Qed.

Lemma get_devices_returns w m country d m' :
  mc (this w) = Some m →
  MiCloud_get_devices m (country_or country (region (this w)))
    = (Returned d, m') →
  get_devices country w =
    (Returned (devices_or_empty d),
     after_devices w m' (country_or country (region (this w)))
       (INFO, "Retrieved " +:+ pretty (devices_count d) +:+ " devices")).
Proof. intros M E. run_get_devices M E. reflexivity. Qed.

Lemma get_devices_raises w m country e m' :
  mc (this w) = Some m →
  MiCloud_get_devices m (country_or country (region (this w)))
    = (Raised e, m') →
  is_Exception e = true →
  get_devices country w =
    (Returned [],
     after_devices w m' (country_or country (region (this w)))
       (ERROR, "Failed to get devices: " +:+ exc_str e)).
Proof. intros M E K. run_get_devices M E. rewrite K. reflexivity. Qed.

(** With a client in [self.mc], the cloud is asked, whatever it answers. *)
Lemma get_devices_asks_cloud w m country :
  mc (this w) = Some m →
  calls (snd (get_devices country w)) =
    (calls w ++ [CallGetDevices (country_or country (region (this w)))])%list.
Proof.
  intros M.
  destruct (MiCloud_get_devices m (country_or country (region (this w))))
    as [[d|e] m'] eqn:E.
  - by rewrite (get_devices_returns _ _ _ _ _ M E).
  - run_get_devices M E. by destruct (is_Exception e).
Qed.

Lemma devices_or_empty_falsy (d : option (list Device)) :
  devices_truthy d = false → devices_or_empty d = [].
Proof. by destruct d as [[|]|]. Qed.
End GetDevicesCases.

(** ** Decimal numerals are never empty *)

Lemma pretty_N_go_grows (x : N) : ∀ s,
  (String.length s ≤ String.length (pretty_N_go x s))%nat.
Proof.
  induction (N.lt_wf_0 x) as [x _ IH]. intros s.
  destruct (decide (x = 0%N)) as [->|Hx].
  - by rewrite pretty_N_go_0.
  - rewrite pretty_N_go_step by lia.
    assert (x `div` 10 < x)%N as Hlt by (apply N.div_lt; lia).
    specialize (IH _ Hlt (String (pretty_N_char (x `mod` 10)) s)).
    simpl in IH. lia.
Qed.

Lemma pretty_positive_nonempty (p : positive) : pretty p ≠ "".
Proof.
  unfold pretty, pretty_positive, pretty, pretty_N.
  rewrite decide_False by done.
  rewrite pretty_N_go_step by lia.
  intros E.
  pose proof (pretty_N_go_grows (N.pos p `div` 10)
                (String (pretty_N_char (N.pos p `mod` 10)) "")) as L.
  rewrite E in L. simpl in L. lia.
Qed.

Lemma pretty_Z_nonempty (z : Z) : pretty z ≠ "".
Proof.
  destruct z as [|p|p]; unfold pretty, pretty_Z; [done| |done].
  apply pretty_positive_nonempty.
Qed.

(** [str(v)] of a truthy value is a non-empty string. *)
Lemma py_str_truthy v : truthy v = true → py_str v ≠ "".
Proof.
  destruct v as [|[|]|z|s]; simpl; try done.
  - intros _. apply pretty_Z_nonempty.
  - intros E. by apply truthy_PyStr.
Qed.

Lemma present_nonempty_Some cm k v :
  present_nonempty cm k = Some v →
  v ≠ "" ∧ ∃ cookies, cm = Some cookies ∧ cookies !! k = Some v.
Proof.
  unfold present_nonempty. destruct cm as [cookies|]; [|done].
  destruct (cookies !! k) as [u|] eqn:E; [|done].
  case_decide; [done|]. intros [= <-]. eauto.
Qed.

Lemma present_nonempty_lookup cookies k v :
  cookies !! k = Some v → v ≠ "" →
  present_nonempty (Some cookies) k = Some v.
Proof. intros E N. unfold present_nonempty. rewrite E. by case_decide. Qed.

Lemma passToken_chain_truthy cm st :
  truthy st = true → truthy (passToken_chain cm st) = true.
Proof.
  intros T. unfold passToken_chain.
  destruct (present_nonempty cm "passToken") as [v|] eqn:Ep.
  { apply present_nonempty_Some in Ep as [N _]. by apply truthy_PyStr. }
  destruct (present_nonempty cm "serviceToken") as [v|] eqn:Es.
  { apply present_nonempty_Some in Es as [N _]. by apply truthy_PyStr. }
  by rewrite T.
Qed.

Lemma passToken_chain_str cm st :
  str_or_None st → ∃ s, passToken_chain cm st = PyStr s.
Proof.
  intros Hst. unfold passToken_chain.
  destruct (present_nonempty cm "passToken") as [v|]; [by eexists|].
  destruct (present_nonempty cm "serviceToken") as [v|]; [by eexists|].
  destruct Hst as [->|[s ->]]; simpl; [by eexists|].
  destruct (negb _); by eexists.
Qed.

Lemma normalized_str v :
  str_or_None v → ∃ s, (if truthy v then v else PyStr "") = PyStr s.
Proof.
  intros [->|[s ->]]; simpl; [by eexists|]. destruct (negb _); by eexists.
Qed.

(** * The token record of a successful login *)

Section LoginClaims.
Context {Device : Type} `{!Provider Device}.

(** C1.  When the cloud's [login()] returns a truthy result, [login]
    returns a token dictionary whose ["passToken"] entry is the result of
    the ordered fallback chain: the cookie mapping's ["passToken"] value
    if present and non-empty, else the cookie mapping's ["serviceToken"]
    value if present and non-empty, else the client's service token, else
    the empty string. *)
Theorem login_passToken_fallback_chain (w : World) m0 r m' :
  new_client w = Returned m0 →
  MiCloud_login m0 = (Returned r, m') →
  truthy r = true →
  ∃ td, fst (login w) = Returned td ∧
        td !! "passToken" =
          Some (passToken_chain (cookie_mapping m') (service_token m')).
Proof.
  intros C E T. exists (token_data m').
  rewrite (login_returns _ _ _ _ C E T). split; [done|].
  apply token_data_passToken.
Qed.

(** C2.  When the cloud's [login()] returns a truthy result and the
    client's service token and ssecurity are strings or [None], the token
    dictionary [login] returns has exactly the keys [userId], [passToken],
    [ssecurity] and [serviceToken], each with a string value, and a
    provider field that is [None] gives the empty string. *)
Theorem login_token_record_complete (w : World) m0 r m' :
  new_client w = Returned m0 →
  MiCloud_login m0 = (Returned r, m') →
  truthy r = true →
  str_or_None (service_token m') →
  str_or_None (ssecurity m') →
  ∃ td, fst (login w) = Returned td ∧
        dom td = list_to_set token_keys ∧
        (∀ k, k ∈ token_keys → ∃ s, td !! k = Some (PyStr s)) ∧
        (user_id m' = PyNone → td !! "userId" = Some (PyStr "")) ∧
        (service_token m' = PyNone →
           td !! "serviceToken" = Some (PyStr "")) ∧
        (ssecurity m' = PyNone → td !! "ssecurity" = Some (PyStr "")).
Proof.
  intros C E T Hst Hss. exists (token_data m').
  rewrite (login_returns _ _ _ _ C E T).
  split; [done|]. split; [apply token_data_dom|].
  rewrite token_data_userId, token_data_serviceToken, token_data_ssecurity.
  split; [|by repeat split; intros ->].
  intros k Hk. unfold token_keys in Hk. set_unfold in Hk.
  destruct Hk as [->|[->|[->|[->|[]]]]].
  - rewrite token_data_userId. destruct (truthy (user_id m')); by eexists.
  - rewrite token_data_passToken.
    destruct (passToken_chain_str (cookie_mapping m') _ Hst) as [s ->].
    by eexists.
  - rewrite token_data_ssecurity.
    destruct (normalized_str _ Hss) as [s ->]. by eexists.
  - rewrite token_data_serviceToken.
    destruct (normalized_str _ Hst) as [s ->]. by eexists.
Qed.

(** C3.  When the cloud's [login()] returns a truthy result, the token
    dictionary [login] returns has a non-empty ["passToken"] whenever its
    ["serviceToken"] is non-empty: the pass token is then truthy, so
    neither [None] nor the empty string, and it is a non-empty string
    when the client's service token is a string or [None]. *)
Theorem login_serviceToken_gives_passToken (w : World) m0 r m' :
  new_client w = Returned m0 →
  MiCloud_login m0 = (Returned r, m') →
  truthy r = true →
  ∃ td st pt, fst (login w) = Returned td ∧
              td !! "serviceToken" = Some st ∧
              td !! "passToken" = Some pt ∧
              (st ≠ PyStr "" →
               truthy pt = true ∧
               (str_or_None (service_token m') →
                ∃ s, pt = PyStr s ∧ s ≠ "")).
Proof.
  intros C E T. exists (token_data m'). do 2 eexists.
  rewrite (login_returns _ _ _ _ C E T).
  split; [done|]. split; [apply token_data_serviceToken|].
  split; [apply token_data_passToken|].
  destruct (truthy (service_token m')) eqn:Tst; [|done].
  intros _.
  pose proof (passToken_chain_truthy (cookie_mapping m') _ Tst) as Tpt.
  split; [done|]. intros Hty.
  destruct (passToken_chain_str (cookie_mapping m') _ Hty) as [s Hs].
  exists s. split; [done|]. rewrite Hs in Tpt. by apply truthy_PyStr.
Qed.

(** C7, as the code has it.  When the cloud's [login()] returns a truthy
    result, the ["userId"] entry is [str(user_id)] when the client's
    [user_id] is truthy and the empty string when it is falsy ([None],
    but also [0], [False] and the empty string); it is the empty string
    exactly when [user_id] is falsy. *)
Theorem login_userId_truthiness (w : World) m0 r m' :
  new_client w = Returned m0 →
  MiCloud_login m0 = (Returned r, m') →
  truthy r = true →
  ∃ td, fst (login w) = Returned td ∧
        td !! "userId" =
          Some (PyStr (if truthy (user_id m') then py_str (user_id m')
                       else "")) ∧
        (user_id m' = PyNone → td !! "userId" = Some (PyStr "")) ∧
        (td !! "userId" = Some (PyStr "") ↔ truthy (user_id m') = false).
Proof.
  intros C E T. exists (token_data m').
  rewrite (login_returns _ _ _ _ C E T). split; [done|].
  rewrite token_data_userId.
  split; [by destruct (truthy (user_id m'))|].
  split; [by intros ->|].
  destruct (truthy (user_id m')) eqn:Tu; [|done].
  split; [|done]. intros [= Hs]. by apply py_str_truthy in Tu.
Qed.

(** C10, as the code has it.  When the cloud's [login()] returns a truthy
    result, the client's service token is [None] or empty and the cookie
    mapping has a non-empty ["serviceToken"] entry, the token dictionary
    has the empty string under ["serviceToken"] and a non-empty string
    under ["passToken"]: the ["serviceToken"] cookie when the cookie
    mapping has no ["passToken"] entry or an empty one, and the
    ["passToken"] cookie when that is non-empty. *)
Theorem login_passToken_without_serviceToken (w : World) m0 r m' cookies v :
  new_client w = Returned m0 →
  MiCloud_login m0 = (Returned r, m') →
  truthy r = true →
  service_token m' = PyNone ∨ service_token m' = PyStr "" →
  session m' = SessionObj cookies →
  cookies !! "serviceToken" = Some v →
  v ≠ "" →
  ∃ td p, fst (login w) = Returned td ∧
          td !! "serviceToken" = Some (PyStr "") ∧
          td !! "passToken" = Some (PyStr p) ∧
          p ≠ "" ∧
          (cookies !! "passToken" = None ∨ cookies !! "passToken" = Some "" →
           p = v) ∧
          (∀ c, cookies !! "passToken" = Some c → c ≠ "" → p = c).
Proof.
  intros C E T Hst Hs Hv Hne.
  pose proof (token_data_passToken m') as Hp.
  unfold passToken_chain, cookie_mapping in Hp. rewrite Hs in Hp.
  rewrite (present_nonempty_lookup _ _ _ Hv Hne) in Hp.
  assert (token_data m' !! "serviceToken" = Some (PyStr "")) as Hst'.
  { rewrite token_data_serviceToken. by destruct Hst as [->| ->]. }
  exists (token_data m').
  rewrite (login_returns _ _ _ _ C E T).
  unfold present_nonempty in Hp.
  destruct (cookies !! "passToken") as [c|] eqn:Ec.
  - destruct (decide (c = "")) as [->|Nc].
    + exists v. repeat split; try done. by intros c' [= <-].
    + exists c. repeat split; try done.
      * by intros [|[= ->]].
      * by intros c' [= <-].
  - exists v. repeat split; try done.
Qed.
End LoginClaims.

(** * Failures of [login] *)

Section LoginFailures.
Context {Device : Type} `{!Provider Device}.

(** C6.  When the cloud's [login()] returns a falsy result, [login]
    raises [Exception("Login failed - no result returned")]: it returns no
    token dictionary, and it has called the cloud's [login()] once. *)
Theorem login_no_result_fails (w : World) m0 r m' :
  new_client w = Returned m0 →
  MiCloud_login m0 = (Returned r, m') →
  truthy r = false →
  fst (login w) = Raised (Exception "Login failed - no result returned") ∧
  (∀ td, fst (login w) ≠ Returned td) ∧
  calls (snd (login w)) =
    (calls w ++ [CallMiCloud (username (this w)) (password (this w));
                 CallLogin])%list.
Proof.
  intros C E T. rewrite (login_no_result _ _ _ _ C E T). by repeat split.
Qed.

(** C8.  When the cloud's [login()] raises, [login] raises that same
    exception; when it is an instance of [Exception], the log has received
    one error line that carries its text. *)
Theorem login_propagates_fault (w : World) m0 e m' :
  new_client w = Returned m0 →
  MiCloud_login m0 = (Raised e, m') →
  fst (login w) = Raised e ∧
  (is_Exception e = true →
   logged (snd (login w)) =
     (logged w ++
      [(INFO, "Attempting login for " +:+ username (this w) +:+
              " in region " +:+ region (this w));
       (ERROR, "Login failed: " +:+ exc_str e)])%list).
Proof.
  intros C E. rewrite (login_raises _ _ _ _ C E). split; [done|].
  by intros ->.
Qed.
End LoginFailures.

(** * [get_devices] *)

Section GetDevicesClaims.
Context {Device : Type} `{!Provider Device}.

(** C4.  On an instance that holds a client, when the cloud's
    [get_devices()] raises an instance of [Exception] or returns a falsy
    result ([None] or the empty list), [get_devices] returns the empty
    list: the same value in both cases, and no exception. *)
Theorem get_devices_swallows_faults (w : World) m country :
  mc (this w) = Some m →
  (∃ e m', MiCloud_get_devices m (country_or country (region (this w)))
             = (Raised e, m') ∧ is_Exception e = true) ∨
  (∃ d m', MiCloud_get_devices m (country_or country (region (this w)))
             = (Returned d, m') ∧ devices_truthy d = false) →
  fst (get_devices country w) = Returned [].
Proof.
  intros M [(e & m' & E & K)|(d & m' & E & F)].
  - by rewrite (get_devices_raises _ _ _ _ _ M E K).
  - rewrite (get_devices_returns _ _ _ _ _ M E). simpl.
    by rewrite devices_or_empty_falsy.
Qed.

(** C9, as the code has it.  On an instance that holds a client,
    [get_devices] asks the cloud for the devices of the country it was
    given when that is a non-empty string, and of the instance's region
    when no country or the empty string was given. *)
Theorem get_devices_country_default (w : World) m country :
  mc (this w) = Some m →
  calls (snd (get_devices country w)) =
    (calls w ++
     [CallGetDevices
        match country with
        | Some c => if decide (c = "") then region (this w) else c
        | None => region (this w)
        end])%list.
Proof.
  intros M. rewrite (get_devices_asks_cloud _ _ _ M).
  do 2 f_equal. destruct country as [c|]; [|done]. simpl.
  case_decide as Hc; [by rewrite Hc|].
  by rewrite eqb_empty_false.
Qed.

(** Before any call of [login], [get_devices] raises
    [Exception("Not logged in - call login() first")] and does not call
    the cloud. *)
Lemma get_devices_before_login (w : World) country :
  mc (this w) = None →
  fst (get_devices country w) =
    Raised (Exception "Not logged in - call login() first") ∧
  calls (snd (get_devices country w)) = calls w.
Proof. intros M. by rewrite (get_devices_no_client _ _ M). Qed.

(** After a call of [login] whose constructor returned, also one that
    raised later, [get_devices] calls the cloud. *)
Lemma get_devices_after_login_attempt (w : World) m0 country :
  new_client w = Returned m0 →
  calls (snd (get_devices country (snd (login w)))) =
    (calls (snd (login w)) ++
     [CallGetDevices (country_or country (region (this w)))])%list.
Proof.
  intros C. destruct (login_sets_mc w m0 C) as [lines ->].
  by rewrite (get_devices_asks_cloud (after_login w _ lines) _ country
                eq_refl).
Qed.
End GetDevicesClaims.

(** * The theorems at concrete clouds *)

(** Alice logs in to a cloud that sets the [passToken] cookie: the first
    link of the chain gives the pass token. *)
Lemma login_passToken_fallback_chain_witness :
  ∃ td, fst (@login string cloud_ok (fresh alice)) = Returned td ∧
        td !! "passToken" = Some (PyStr "cookie-pt").
Proof.
  exact (@login_passToken_fallback_chain string cloud_ok (fresh alice)
           _ (PyBool true) _ eq_refl eq_refl eq_refl).
Defined.

(** The same login gives a dictionary with the four keys. *)
Lemma login_token_record_complete_witness :
  ∃ td, fst (@login string cloud_ok (fresh alice)) = Returned td ∧
        dom td = list_to_set token_keys ∧
        (∀ k, k ∈ token_keys → ∃ s, td !! k = Some (PyStr s)).
Proof.
  destruct (@login_token_record_complete string cloud_ok (fresh alice)
              _ (PyBool true) _ eq_refl eq_refl eq_refl
              (or_intror (ex_intro _ "svc-abc" eq_refl))
              (or_intror (ex_intro _ "sec-xyz" eq_refl)))
    as (td & Htd & Hdom & Hstr & _).
  exists td. repeat split; assumption.
Defined.

(** With an empty cookie jar the service token is reused as pass token. *)
Lemma login_serviceToken_gives_passToken_witness :
  ∃ td st pt,
    fst (@login string cloud_no_cookies (fresh alice)) = Returned td ∧
    td !! "serviceToken" = Some st ∧
    td !! "passToken" = Some pt ∧
    (st ≠ PyStr "" →
     truthy pt = true ∧
     (str_or_None (PyStr "svc-abc") → ∃ s, pt = PyStr s ∧ s ≠ "")).
Proof.
  exact (@login_serviceToken_gives_passToken string cloud_no_cookies
           (fresh alice) _ (PyBool true) _ eq_refl eq_refl eq_refl).
Defined.

(** User 12345 gets the numeral as [userId]. *)
Lemma login_userId_truthiness_witness :
  ∃ td, fst (@login string cloud_ok (fresh alice)) = Returned td ∧
        td !! "userId" = Some (PyStr "12345").
Proof.
  destruct (@login_userId_truthiness string cloud_ok (fresh alice)
              _ (PyBool true) _ eq_refl eq_refl eq_refl) as (td & Htd & Hid & _).
  exists td. split; assumption.
Defined.

(** No service token on the client: with only the [serviceToken] cookie
    that cookie is the pass token, with both cookies the [passToken] cookie
    is. *)
Lemma login_passToken_without_serviceToken_witness :
  (∃ td, fst (@login string cloud_service_cookie (fresh alice)) = Returned td ∧
         td !! "serviceToken" = Some (PyStr "") ∧
         td !! "passToken" = Some (PyStr "st")) ∧
  (∃ td, fst (@login string cloud_both_cookies (fresh alice)) = Returned td ∧
         td !! "serviceToken" = Some (PyStr "") ∧
         td !! "passToken" = Some (PyStr "pt")).
Proof.
  split.
  - destruct (@login_passToken_without_serviceToken string
                cloud_service_cookie (fresh alice) _ (PyBool true) _
                {[ "serviceToken" := "st" ]} "st"
                eq_refl eq_refl eq_refl (or_introl eq_refl) eq_refl eq_refl
                ltac:(discriminate))
      as (td & p & Htd & Hst & Hpt & _ & Hp & _).
    exists td. rewrite <-(Hp (or_introl eq_refl)).
    split; [|split]; assumption.
  - destruct (@login_passToken_without_serviceToken string
                cloud_both_cookies (fresh alice) _ (PyBool true) _
                {[ "passToken" := "pt"; "serviceToken" := "st" ]} "st"
                eq_refl eq_refl eq_refl (or_introl eq_refl) eq_refl eq_refl
                ltac:(discriminate))
      as (td & p & Htd & Hst & Hpt & _ & _ & Hc).
    exists td. rewrite <-(Hc "pt" eq_refl ltac:(discriminate)).
    split; [|split]; assumption.
Defined.

(** The cloud denies the login. *)
Lemma login_no_result_fails_witness :
  fst (@login string cloud_denied (fresh alice)) =
    Raised (Exception "Login failed - no result returned") ∧
  calls (snd (@login string cloud_denied (fresh alice))) =
    [CallMiCloud "alice" "secret"; CallLogin].
Proof.
  destruct (@login_no_result_fails string cloud_denied (fresh alice)
              _ (PyBool false) _ eq_refl eq_refl eq_refl) as (Hr & _ & Hc).
  split; assumption.
Defined.

(** The network is down during the handshake. *)
Lemma login_propagates_fault_witness :
  fst (@login string cloud_down (fresh alice)) = Raised ConnectionError ∧
  logged (snd (@login string cloud_down (fresh alice))) =
    [(INFO, "Attempting login for alice in region cn");
     (ERROR, "Login failed: network unreachable")].
Proof.
  destruct (@login_propagates_fault string cloud_down (fresh alice)
              _ ConnectionError _ eq_refl eq_refl) as [Hr Hl].
  split; [exact Hr | exact (Hl eq_refl)].
Defined.

(** The two scenarios of the specification: a [passToken] cookie, and an
    empty cookie jar. *)
Example login_scenario_cookie :
  fst (@login string cloud_ok (fresh alice)) =
    Returned {[ "userId" := PyStr "12345"; "passToken" := PyStr "cookie-pt";
                "ssecurity" := PyStr "sec-xyz";
                "serviceToken" := PyStr "svc-abc" ]}.
Proof. reflexivity. Qed.

Example login_scenario_no_cookies :
  fst (@login string cloud_no_cookies (fresh alice)) =
    Returned {[ "userId" := PyStr "12345"; "passToken" := PyStr "svc-abc";
                "ssecurity" := PyStr "sec-xyz";
                "serviceToken" := PyStr "svc-abc" ]}.
Proof. reflexivity. Qed.

(** Device retrieval raises for one logged-in instance and finds nothing for
    another: the caller gets the empty list from both. *)
Lemma get_devices_swallows_faults_witness :
  fst (@get_devices string cloud_devices_down None
         (snd (@login string cloud_devices_down (fresh alice)))) = Returned [] ∧
  fst (@get_devices string cloud_no_cookies None
         (snd (@login string cloud_no_cookies (fresh alice)))) = Returned [].
Proof.
  split.
  - apply (@get_devices_swallows_faults string cloud_devices_down
             (snd (@login string cloud_devices_down (fresh alice))) _ None
             eq_refl).
    left. exists ConnectionError. eexists. split; reflexivity.
  - apply (@get_devices_swallows_faults string cloud_no_cookies
             (snd (@login string cloud_no_cookies (fresh alice))) _ None
             eq_refl).
    right. exists (Some []). eexists. split; reflexivity.
Defined.

(** Alice, whose region is the default ["cn"], lists her devices without a
    country, for ["de"], and for the empty string. *)
Lemma get_devices_country_default_witness :
  let w := snd (@login string cloud_ok (fresh alice)) in
  calls (snd (@get_devices string cloud_ok None w)) =
    [CallMiCloud "alice" "secret"; CallLogin; CallGetDevices "cn"] ∧
  calls (snd (@get_devices string cloud_ok (Some "de") w)) =
    [CallMiCloud "alice" "secret"; CallLogin; CallGetDevices "de"] ∧
  calls (snd (@get_devices string cloud_ok (Some "") w)) =
    [CallMiCloud "alice" "secret"; CallLogin; CallGetDevices "cn"].
Proof.
  intros w. split; [|split].
  - exact (@get_devices_country_default string cloud_ok w _ None eq_refl).
  - exact (@get_devices_country_default string cloud_ok w _ (Some "de")
             eq_refl).
  - exact (@get_devices_country_default string cloud_ok w _ (Some "")
             eq_refl).
Defined.

(** * Where the code departs from the specification *)

(** C7 as the specification words it fails.  The specification asks for
    [str(user_id)] under ["userId"] when the client has a user id and for
    the empty string when it has none.  For the user whose id is the
    integer 0 the code gives the empty string, not ["0"]. *)
Lemma login_userId_as_stated_fails :
  ¬ (∀ (P : Provider string) (w : World) m0 r m',
       @new_client string P w = Returned m0 →
       @MiCloud_login string P m0 = (Returned r, m') →
       truthy r = true →
       ∃ td, fst (@login string P w) = Returned td ∧
             (user_id m' ≠ PyNone →
              td !! "userId" = Some (PyStr (py_str (user_id m')))) ∧
             (user_id m' = PyNone → td !! "userId" = Some (PyStr ""))).
Proof.
  intros C.
  destruct (C cloud_user_zero (fresh alice) _ (PyBool true) _
              eq_refl eq_refl eq_refl) as (td & Htd & Hstr & _).
  rewrite (@login_returns string cloud_user_zero (fresh alice) _ (PyBool true)
             _ eq_refl eq_refl eq_refl) in Htd.
  injection Htd as <-.
  assert (user_id (signed_in (PyInt 0) (PyStr "svc-abc") (PyStr "sec-xyz")
                     SessionNone (blank_client "alice" "secret")) ≠ PyNone)
    as Hid by discriminate.
  specialize (Hstr Hid). rewrite token_data_userId in Hstr.
  discriminate Hstr.
Qed.

(** C9 as the specification words it fails: the empty string supplied as
    country is not used; the region is. *)
Lemma get_devices_country_as_stated_fails :
  ¬ (∀ (P : Provider string) (w : World) m,
       mc (this w) = Some m →
       calls (snd (@get_devices string P None w)) =
         (calls w ++ [CallGetDevices (region (this w))])%list ∧
       ∀ c, calls (snd (@get_devices string P (Some c) w)) =
              (calls w ++ [CallGetDevices c])%list).
Proof.
  intros C.
  destruct (C cloud_ok (snd (@login string cloud_ok (fresh alice))) _ eq_refl)
    as [_ Hc].
  specialize (Hc "").
  rewrite (@get_devices_asks_cloud string cloud_ok
             (snd (@login string cloud_ok (fresh alice))) _ (Some "") eq_refl)
    in Hc.
  apply app_inv_head in Hc. discriminate Hc.
Qed.

(** C10 as the specification words it fails: with both cookies set, the
    pass token is the ["passToken"] cookie, not the ["serviceToken"] one. *)
Lemma login_passToken_as_stated_fails :
  ¬ (∀ (P : Provider string) (w : World) m0 r m' cookies v,
       @new_client string P w = Returned m0 →
       @MiCloud_login string P m0 = (Returned r, m') →
       truthy r = true →
       service_token m' = PyNone ∨ service_token m' = PyStr "" →
       session m' = SessionObj cookies →
       cookies !! "serviceToken" = Some v →
       v ≠ "" →
       ∃ td, fst (@login string P w) = Returned td ∧
             td !! "serviceToken" = Some (PyStr "") ∧
             td !! "passToken" = Some (PyStr v)).
Proof.
  intros C.
  destruct (C cloud_both_cookies (fresh alice) _ (PyBool true) _
              {[ "passToken" := "pt"; "serviceToken" := "st" ]} "st"
              eq_refl eq_refl eq_refl (or_introl eq_refl) eq_refl eq_refl
              ltac:(discriminate))
    as (td & Htd & _ & Hpt).
  rewrite (@login_returns string cloud_both_cookies (fresh alice)
             _ (PyBool true) _ eq_refl eq_refl eq_refl) in Htd.
  injection Htd as <-. rewrite token_data_passToken in Hpt.
  vm_compute in Hpt. discriminate Hpt.
Qed.

(** C5, where the code departs from it.  The cloud denies Alice's login, so
    [login] raises; [get_devices] then does not raise the not-logged-in
    exception: it finds the client that [login] stored before the
    handshake, calls the cloud's [get_devices()] for her region, and
    returns the empty list the cloud's [None] is turned into. *)
Theorem get_devices_after_denied_login :
  let w := snd (@login string cloud_denied (fresh alice)) in
  fst (@login string cloud_denied (fresh alice)) =
    Raised (Exception "Login failed - no result returned") ∧
  fst (@get_devices string cloud_denied None w) = Returned [] ∧
  calls (snd (@get_devices string cloud_denied None w)) =
    [CallMiCloud "alice" "secret"; CallLogin; CallGetDevices "cn"].
Proof. by vm_compute. Qed.

(** * Further properties of [login] and [get_devices] *)

(** ** Shared lemmas *)

Section Footprint.
Context {Device : Type} `{!Provider Device}.

(** A [BaseException] that is no [Exception] passes through
    [get_devices], which logs nothing. *)
Lemma get_devices_passes_base w m country e m' :
  mc (this w) = Some m →
  MiCloud_get_devices m (country_or country (region (this w)))
    = (Raised e, m') →
  is_Exception e = false →
  get_devices country w =
    (Raised e,
     mkWorld
       (mkXiaomiAuth (username (this w)) (password (this w))
                     (region (this w)) (Some m'))
       (logged w)
       (calls w ++ [CallGetDevices (country_or country (region (this w)))])).
Proof.
  intros M E K.
  cbv beta iota zeta delta
    [get_devices try_except bind get_self log record_call set_mc
     mc_get_devices the_mc ret raise].
  simpl. rewrite M. simpl. rewrite M. simpl. rewrite E. simpl.
  by rewrite K.
Qed.

(** [devices or []] of a list is that list. *)
Lemma devices_or_empty_list (l : list Device) :
  devices_or_empty (Some l) = l.
Proof. by destruct l. Qed.

(** The number in the log line is the length of the list returned. *)
Lemma devices_count_length (d : option (list Device)) :
  devices_count d = Z.of_nat (length (devices_or_empty d)).
Proof. by destruct d as [[|]|]. Qed.
End Footprint.

(** ** [login]: when it returns, what it touches, what it logs *)

Section LoginExtras.
Context {Device : Type} `{!Provider Device}.

(** X3.  [login] returns a token dictionary exactly when the constructor
    returns a client and the cloud's [login()] on it returns a truthy
    result; in every other case it raises. *)
Theorem login_returns_iff (w : World) :
  (∃ td, fst (login w) = Returned td) ↔
  (∃ m0 r m', new_client w = Returned m0 ∧
              MiCloud_login m0 = (Returned r, m') ∧
              truthy r = true).
Proof.
  destruct (new_client w) as [m0|e0] eqn:C.
  - destruct (MiCloud_login m0) as [[r|e] m'] eqn:E.
    + destruct (truthy r) eqn:T.
      * rewrite (login_returns _ _ _ _ C E T). split; intros _; by eauto 6.
      * rewrite (login_no_result _ _ _ _ C E T).
        split; [by intros [td ?]|].
        intros (m1 & r' & m'' & [= <-] & E' & T').
        rewrite E in E'. injection E' as <- _. congruence.
    + rewrite (login_raises _ _ _ _ C E).
      split; [by intros [td ?]|].
      intros (m1 & r' & m'' & [= <-] & E' & _). by rewrite E in E'.
  - rewrite (login_constructor_raises _ _ C).
    split; [by intros [td ?]|]. by intros (m1 & r' & m'' & [=] & _).
Qed.

(** X4.  On every path [login] keeps the instance's username, password and
    region.  When the constructor returns a client, [login] leaves that
    client, as the cloud's [login()] left it, in [self.mc], and has made
    exactly two calls on the cloud: the constructor with the instance's
    credentials, then [login()].  When the constructor raises, [login]
    raises the same exception, leaves [self.mc] as it was, and has made
    the constructor call only.  It never lists devices and never repeats
    the handshake. *)
Theorem login_footprint (w : World) :
  username (this (snd (login w))) = username (this w) ∧
  password (this (snd (login w))) = password (this w) ∧
  region (this (snd (login w))) = region (this w) ∧
  match new_client w with
  | Returned m0 =>
      mc (this (snd (login w))) = Some (snd (MiCloud_login m0)) ∧
      calls (snd (login w)) =
        (calls w ++ [CallMiCloud (username (this w)) (password (this w));
                     CallLogin])%list
  | Raised e =>
      fst (login w) = Raised e ∧
      mc (this (snd (login w))) = mc (this w) ∧
      calls (snd (login w)) =
        (calls w ++ [CallMiCloud (username (this w)) (password (this w))])%list
  end.
Proof.
  destruct (new_client w) as [m0|e] eqn:C.
  - destruct (login_sets_mc w m0 C) as [lines ->]. simpl. by repeat split.
  - rewrite (login_constructor_raises _ _ C). simpl. by repeat split.
Qed.

(** X5.  [login] never reuses a client stored earlier.  For two states of
    an instance with the same username and password it returns or raises
    the same; when the constructor returns, both are left with the newly
    built client as the cloud's [login()] left it, whatever [self.mc] held
    before; when the constructor raises, each keeps what it held. *)
Theorem login_new_handshake (w1 w2 : World) :
  username (this w1) = username (this w2) →
  password (this w1) = password (this w2) →
  fst (login w1) = fst (login w2) ∧
  match new_client w1 with
  | Returned m0 =>
      mc (this (snd (login w1))) = Some (snd (MiCloud_login m0)) ∧
      mc (this (snd (login w2))) = Some (snd (MiCloud_login m0))
  | Raised _ =>
      mc (this (snd (login w1))) = mc (this w1) ∧
      mc (this (snd (login w2))) = mc (this w2)
  end.
Proof.
  intros Hu Hp.
  assert (new_client w2 = new_client w1) as Hc.
  { unfold new_client. by rewrite Hu, Hp. }
  destruct (new_client w1) as [m0|e0] eqn:C1.
  - destruct (MiCloud_login m0) as [[r|e] m'] eqn:E.
    + destruct (truthy r) eqn:T.
      * by rewrite (login_returns _ _ _ _ C1 E T),
                   (login_returns _ _ _ _ Hc E T).
      * by rewrite (login_no_result _ _ _ _ C1 E T),
                   (login_no_result _ _ _ _ Hc E T).
    + by rewrite (login_raises _ _ _ _ C1 E), (login_raises _ _ _ _ Hc E).
  - by rewrite (login_constructor_raises _ _ C1),
               (login_constructor_raises _ _ Hc).
Qed.

(** X6.  A successful [login] adds exactly three INFO lines to the log: the
    attempt with username and region, the success, and the user id as it
    stands in the token dictionary.  The lines are built from the
    username, the region and the user id only. *)
Theorem login_success_log (w : World) m0 r m' :
  new_client w = Returned m0 →
  MiCloud_login m0 = (Returned r, m') →
  truthy r = true →
  logged (snd (login w)) =
    (logged w ++
     [(INFO, "Attempting login for " +:+ username (this w) +:+
             " in region " +:+ region (this w));
      (INFO, "Login successful!");
      (INFO, "Retrieved tokens - userId: " +:+
             (if truthy (user_id m') then py_str (user_id m') else ""))])%list.
Proof.
  intros C E T. rewrite (login_returns _ _ _ _ C E T). simpl.
  do 4 f_equal. unfold lookup_total, map_lookup_total.
  rewrite token_data_userId. simpl. by destruct (truthy (user_id m')).
Qed.

(** X7.  When the cloud's [login()] returns a falsy result, the exception
    [login] raises inside its [try] block goes through its own handler:
    the log receives the attempt line and one ERROR line that repeats the
    prefix, and nothing else. *)
Theorem login_no_result_log (w : World) m0 r m' :
  new_client w = Returned m0 →
  MiCloud_login m0 = (Returned r, m') →
  truthy r = false →
  logged (snd (login w)) =
    (logged w ++
     [(INFO, "Attempting login for " +:+ username (this w) +:+
             " in region " +:+ region (this w));
      (ERROR, "Login failed: Login failed - no result returned")])%list.
Proof. intros C E T. by rewrite (login_no_result _ _ _ _ C E T). Qed.

(** X8.  When the cloud's [login()] raises a [BaseException] that is no
    [Exception] (a [KeyboardInterrupt]), the handler of [login] does not
    run: the exception leaves unchanged and no ERROR line is logged. *)
Theorem login_passes_base_exception (w : World) m0 e m' :
  new_client w = Returned m0 →
  MiCloud_login m0 = (Raised e, m') →
  is_Exception e = false →
  fst (login w) = Raised e ∧
  logged (snd (login w)) =
    (logged w ++
     [(INFO, "Attempting login for " +:+ username (this w) +:+
             " in region " +:+ region (this w))])%list.
Proof. intros C E K. rewrite (login_raises _ _ _ _ C E), K. by split. Qed.

(** X19.  When the constructor of the client raises, [login] raises that
    same exception without calling the cloud's [login()] and leaves the
    instance as it was, so no client is stored; for an instance of
    [Exception] the log receives the attempt line and one ERROR line with
    its text. *)
Theorem login_constructor_fault (w : World) e :
  new_client w = Raised e →
  fst (login w) = Raised e ∧
  this (snd (login w)) = this w ∧
  calls (snd (login w)) =
    (calls w ++ [CallMiCloud (username (this w)) (password (this w))])%list ∧
  (is_Exception e = true →
   logged (snd (login w)) =
     (logged w ++
      [(INFO, "Attempting login for " +:+ username (this w) +:+
              " in region " +:+ region (this w));
       (ERROR, "Login failed: " +:+ exc_str e)])%list).
Proof.
  intros C. rewrite (login_constructor_raises _ _ C).
  do 3 (split; [done|]). by intros ->.
Qed.
End LoginExtras.

(** ** The token dictionary: further entries *)

Section TokenExtras.
Context {Device : Type} `{!Provider Device}.

(** X9.  After a successful [login] the ["passToken"] entry is the empty string
    exactly when every source is empty: no non-empty ["passToken"] cookie,
    no non-empty ["serviceToken"] cookie, and a falsy service token on the
    client. *)
Theorem login_passToken_empty_iff (w : World) m0 r m' :
  new_client w = Returned m0 →
  MiCloud_login m0 = (Returned r, m') →
  truthy r = true →
  ∃ td, fst (login w) = Returned td ∧
        (td !! "passToken" = Some (PyStr "") ↔
         present_nonempty (cookie_mapping m') "passToken" = None ∧
         present_nonempty (cookie_mapping m') "serviceToken" = None ∧
         truthy (service_token m') = false).
Proof.
  intros C E T. exists (token_data m').
  rewrite (login_returns _ _ _ _ C E T). split; [done|].
  rewrite token_data_passToken. unfold passToken_chain.
  destruct (present_nonempty (cookie_mapping m') "passToken") as [p|] eqn:Ep.
  { apply present_nonempty_Some in Ep as [Np _].
    split; [intros [= ->]; done | by intros [? _]]. }
  destruct (present_nonempty (cookie_mapping m') "serviceToken")
    as [s|] eqn:Es.
  { apply present_nonempty_Some in Es as [Ns _].
    split; [intros [= ->]; done | by intros (_ & ? & _)]. }
  destruct (truthy (service_token m')) eqn:Tst.
  - split; [|by intros (_ & _ & ?)].
    intros [= Hst]. apply truthy_not_empty in Tst. done.
  - done.
Qed.

(** X10.  After a successful [login] with no usable cookie (no session, an empty
    jar, or empty cookie values), the ["passToken"] and ["serviceToken"]
    entries are the same value. *)
Theorem login_passToken_is_serviceToken (w : World) m0 r m' :
  new_client w = Returned m0 →
  MiCloud_login m0 = (Returned r, m') →
  truthy r = true →
  present_nonempty (cookie_mapping m') "passToken" = None →
  present_nonempty (cookie_mapping m') "serviceToken" = None →
  ∃ td v, fst (login w) = Returned td ∧
          td !! "passToken" = Some v ∧
          td !! "serviceToken" = Some v.
Proof.
  intros C E T Hp Hs. exists (token_data m'). eexists.
  rewrite (login_returns _ _ _ _ C E T). split; [done|].
  rewrite token_data_passToken, token_data_serviceToken.
  unfold passToken_chain. rewrite Hp, Hs. by split.
Qed.

(** X11.  A successful [login] relays a non-empty service token and a non-empty
    ssecurity of the client unchanged. *)
Theorem login_relays_tokens (w : World) m0 r m' st ss :
  new_client w = Returned m0 →
  MiCloud_login m0 = (Returned r, m') →
  truthy r = true →
  service_token m' = PyStr st → st ≠ "" →
  ssecurity m' = PyStr ss → ss ≠ "" →
  ∃ td, fst (login w) = Returned td ∧
        td !! "serviceToken" = Some (PyStr st) ∧
        td !! "ssecurity" = Some (PyStr ss).
Proof.
  intros C E T Hst Nst Hss Nss. exists (token_data m').
  rewrite (login_returns _ _ _ _ C E T). split; [done|].
  rewrite token_data_serviceToken, token_data_ssecurity, Hst, Hss. simpl.
  by rewrite !eqb_empty_false.
Qed.

(** X12.  Two clients with integer user ids get the same ["userId"] entry only
    when the ids are equal: the decimal numeral identifies the user, and
    only the id 0 is lost to the empty string. *)
Theorem token_data_userId_inj (m1 m2 : MiCloud) (z1 z2 : Z) :
  user_id m1 = PyInt z1 →
  user_id m2 = PyInt z2 →
  token_data m1 !! "userId" = token_data m2 !! "userId" →
  z1 = z2.
Proof.
  intros H1 H2. rewrite !token_data_userId, H1, H2. simpl.
  destruct (z1 =? 0)%Z eqn:E1; destruct (z2 =? 0)%Z eqn:E2;
    simpl; intros Hs.
  - apply Z.eqb_eq in E1, E2. congruence.
  - injection Hs as Hs. by destruct (pretty_Z_nonempty z2).
  - injection Hs as Hs. by destruct (pretty_Z_nonempty z1).
  - injection Hs as Hs. by apply (inj pretty).
Qed.
End TokenExtras.

(** ** [get_devices]: what it returns, raises, logs and keeps *)

Section GetDevicesExtras.
Context {Device : Type} `{!Provider Device}.

(** X1.  On an instance as [__init__] leaves it, whatever the region given,
    [get_devices] raises [Exception("Not logged in - call login() first")]
    and changes nothing: no call on the cloud, no log line. *)
Theorem get_devices_on_new_instance (u p : string) (r country : option string) :
  get_devices country (fresh (init u p r)) =
    (Raised (Exception "Not logged in - call login() first"),
     fresh (init u p r)).
Proof. by apply get_devices_no_client. Qed.

(** X2.  A whole session on a new instance: [login], then [get_devices].
    When the constructor returns a client, the cloud sees the constructor
    with the credentials given to [__init__], one [login()], and one
    [get_devices()] whose country is the one given if non-empty, else the
    region given to [__init__], else ["cn"], whatever [login()] did.  When
    the constructor raises, the cloud sees the constructor call only, and
    [get_devices] raises the not-logged-in exception. *)
Theorem session_call_trace (u p : string) (r country : option string) :
  match MiCloud_new u p with
  | Returned _ =>
      calls (snd (get_devices country (snd (login (fresh (init u p r)))))) =
        [CallMiCloud u p; CallLogin;
         CallGetDevices (country_or country (default "cn" r))]
  | Raised _ =>
      fst (get_devices country (snd (login (fresh (init u p r))))) =
        Raised (Exception "Not logged in - call login() first") ∧
      calls (snd (get_devices country (snd (login (fresh (init u p r)))))) =
        [CallMiCloud u p]
  end.
Proof.
  destruct (MiCloud_new u p) as [m0|e] eqn:C.
  - destruct (login_sets_mc (fresh (init u p r)) m0 C) as [lines ->].
    by rewrite (get_devices_asks_cloud
                  (after_login (fresh (init u p r)) _ lines) _ country
                  eq_refl).
  - rewrite (login_constructor_raises (fresh (init u p r)) e C).
    cbn [snd].
    by rewrite (get_devices_no_client
                  (after_failed_constructor (fresh (init u p r)) _) country
                  eq_refl).
Qed.

(** X13.  With a client in [self.mc], a list the cloud returns comes back as it
    is: same devices, same order. *)
Theorem get_devices_returns_cloud_list (w : World) m country l m' :
  mc (this w) = Some m →
  MiCloud_get_devices m (country_or country (region (this w)))
    = (Returned (Some l), m') →
  fst (get_devices country w) = Returned l.
Proof.
  intros M E. rewrite (get_devices_returns _ _ _ _ _ M E).
  cbn [fst]. by rewrite devices_or_empty_list.
Qed.

(** X14.  With a client in [self.mc], whenever the cloud's [get_devices()]
    returns, the one INFO line logged counts the devices of the list
    handed back to the caller (0 for [None]). *)
Theorem get_devices_log_counts_result (w : World) m country d m' :
  mc (this w) = Some m →
  MiCloud_get_devices m (country_or country (region (this w)))
    = (Returned d, m') →
  ∃ l, fst (get_devices country w) = Returned l ∧
       logged (snd (get_devices country w)) =
         (logged w ++
          [(INFO, "Retrieved " +:+ pretty (Z.of_nat (length l)) +:+
                  " devices")])%list.
Proof.
  intros M E. exists (devices_or_empty d).
  rewrite (get_devices_returns _ _ _ _ _ M E).
  unfold after_devices. cbn [fst snd logged].
  by rewrite devices_count_length.
Qed.

(** X15.  [get_devices] raises in two cases only: its own not-logged-in
    exception when [self.mc] is [None], and a [BaseException] that is no
    [Exception] coming from the cloud.  It never lets an [Exception] of
    the cloud through. *)
Theorem get_devices_raises_only (w : World) country e :
  fst (get_devices country w) = Raised e →
  (mc (this w) = None ∧
   e = Exception "Not logged in - call login() first") ∨
  (is_Exception e = false ∧
   ∃ m m', mc (this w) = Some m ∧
           MiCloud_get_devices m (country_or country (region (this w)))
             = (Raised e, m')).
Proof.
  destruct (mc (this w)) as [m|] eqn:M.
  - destruct (MiCloud_get_devices m (country_or country (region (this w))))
      as [[d|e'] m'] eqn:E.
    + by rewrite (get_devices_returns _ _ _ _ _ M E).
    + destruct (is_Exception e') eqn:K.
      * by rewrite (get_devices_raises _ _ _ _ _ M E K).
      * rewrite (get_devices_passes_base _ _ _ _ _ M E K). simpl.
        intros [= <-]. right. eauto.
  - rewrite (get_devices_no_client _ _ M). simpl. intros [= <-]. by left.
Qed.

(** X16.  When the cloud's [get_devices()] raises a [BaseException] that is no
    [Exception], [get_devices] lets it through unchanged and logs
    nothing. *)
Theorem get_devices_passes_base_exception (w : World) m country e m' :
  mc (this w) = Some m →
  MiCloud_get_devices m (country_or country (region (this w)))
    = (Raised e, m') →
  is_Exception e = false →
  fst (get_devices country w) = Raised e ∧
  logged (snd (get_devices country w)) = logged w.
Proof.
  intros M E K. by rewrite (get_devices_passes_base _ _ _ _ _ M E K).
Qed.

(** X17.  Whatever happens, [get_devices] keeps the instance's username,
    password
    and region, and it neither stores a client where there was none nor
    drops the one there is. *)
Theorem get_devices_footprint (w : World) country :
  username (this (snd (get_devices country w))) = username (this w) ∧
  password (this (snd (get_devices country w))) = password (this w) ∧
  region (this (snd (get_devices country w))) = region (this w) ∧
  (is_Some (mc (this (snd (get_devices country w)))) ↔
   is_Some (mc (this w))).
Proof.
  destruct (mc (this w)) as [m|] eqn:M.
  - assert (is_Some (Some m)) as Hm by eauto.
    destruct (MiCloud_get_devices m (country_or country (region (this w))))
      as [[d|e] m'] eqn:E.
    + rewrite (get_devices_returns _ _ _ _ _ M E). simpl.
      repeat split; eauto.
    + destruct (is_Exception e) eqn:K.
      * rewrite (get_devices_raises _ _ _ _ _ M E K). simpl.
        repeat split; eauto.
      * rewrite (get_devices_passes_base _ _ _ _ _ M E K). simpl.
        repeat split; eauto.
  - rewrite (get_devices_no_client _ _ M). simpl. by rewrite M.
Qed.

(** X18.  [get_devices] after [login] asks the very client [login] left in
    [self.mc], for the instance's region unless a non-empty country is
    given, hands back the list the cloud returns, and leaves in [self.mc]
    the client in the state that call left it. *)
Theorem get_devices_uses_login_client (w : World) m0 o m' country l m'' :
  new_client w = Returned m0 →
  MiCloud_login m0 = (o, m') →
  MiCloud_get_devices m' (country_or country (region (this w)))
    = (Returned (Some l), m'') →
  fst (get_devices country (snd (login w))) = Returned l ∧
  mc (this (snd (get_devices country (snd (login w))))) = Some m''.
Proof.
  intros C E D.
  assert (∃ lines, snd (login w) = after_login w m' lines) as [lines Hw].
  { destruct o as [r|e].
    - destruct (truthy r) eqn:T.
      + rewrite (login_returns _ _ _ _ C E T). by eexists.
      + rewrite (login_no_result _ _ _ _ C E T). by eexists.
    - rewrite (login_raises _ _ _ _ C E). by eexists. }
  rewrite Hw.
  rewrite (get_devices_returns (after_login w m' lines) m' country
             (Some l) m'' eq_refl D).
  unfold after_devices. cbn [fst snd this mc].
  by rewrite devices_or_empty_list.
Qed.
End GetDevicesExtras.

(** ** The further properties at concrete clouds *)

(** Alice logs in twice: the second login returns what the first did and
    leaves the same client.  Then the constructor fails: the client of the
    earlier login stays in [self.mc]. *)
Lemma login_new_handshake_witness :
  let w := snd (@login string cloud_ok (fresh alice)) in
  (fst (@login string cloud_ok w) =
     fst (@login string cloud_ok (fresh alice)) ∧
   mc (this (snd (@login string cloud_ok w))) =
     mc (this (snd (@login string cloud_ok (fresh alice))))) ∧
  (fst (@login string cloud_no_client w) =
     fst (@login string cloud_no_client (fresh alice)) ∧
   mc (this (snd (@login string cloud_no_client w))) = mc (this w)).
Proof.
  intros w. split.
  - destruct (@login_new_handshake string cloud_ok w (fresh alice)
                eq_refl eq_refl) as [Hr [H1 H2]].
    split; [exact Hr | rewrite H1, H2; reflexivity].
  - destruct (@login_new_handshake string cloud_no_client w (fresh alice)
                eq_refl eq_refl) as [Hr [H1 _]].
    split; [exact Hr | exact H1].
Defined.

(** The constructor fails for a new instance: no client, one call. *)
Lemma login_constructor_fault_witness :
  fst (@login string cloud_no_client (fresh alice)) = Raised ConnectionError ∧
  mc (this (snd (@login string cloud_no_client (fresh alice)))) = None ∧
  calls (snd (@login string cloud_no_client (fresh alice))) =
    [CallMiCloud "alice" "secret"] ∧
  logged (snd (@login string cloud_no_client (fresh alice))) =
    [(INFO, "Attempting login for alice in region cn");
     (ERROR, "Login failed: network unreachable")].
Proof.
  destruct (@login_constructor_fault string cloud_no_client (fresh alice)
              ConnectionError eq_refl) as (Hr & Hthis & Hc & Hl).
  split; [exact Hr|]. split; [rewrite Hthis; reflexivity|].
  split; [exact Hc | exact (Hl eq_refl)].
Defined.

Lemma login_success_log_witness :
  logged (snd (@login string cloud_ok (fresh alice))) =
    [(INFO, "Attempting login for alice in region cn");
     (INFO, "Login successful!");
     (INFO, "Retrieved tokens - userId: 12345")].
Proof.
  exact (@login_success_log string cloud_ok (fresh alice) _ (PyBool true) _
           eq_refl eq_refl eq_refl).
Defined.

Lemma login_no_result_log_witness :
  logged (snd (@login string cloud_denied (fresh alice))) =
    [(INFO, "Attempting login for alice in region cn");
     (ERROR, "Login failed: Login failed - no result returned")].
Proof.
  exact (@login_no_result_log string cloud_denied (fresh alice)
           _ (PyBool false) _ eq_refl eq_refl eq_refl).
Defined.

Lemma login_passes_base_exception_witness :
  fst (@login string cloud_interrupted (fresh alice)) =
    Raised KeyboardInterrupt ∧
  logged (snd (@login string cloud_interrupted (fresh alice))) =
    [(INFO, "Attempting login for alice in region cn")].
Proof.
  exact (@login_passes_base_exception string cloud_interrupted (fresh alice)
           _ KeyboardInterrupt _ eq_refl eq_refl eq_refl).
Defined.

(** Bob's client holds a service token, so his pass token is not empty. *)
Lemma login_passToken_empty_iff_witness :
  ∃ td, fst (@login string cloud_user_zero (fresh bob)) = Returned td ∧
        td !! "passToken" ≠ Some (PyStr "").
Proof.
  destruct (@login_passToken_empty_iff string cloud_user_zero (fresh bob)
              _ (PyBool true) _ eq_refl eq_refl eq_refl) as (td & Htd & Hiff).
  exists td. split; [exact Htd|].
  intros Hempty. apply Hiff in Hempty as (_ & _ & Hst). discriminate Hst.
Defined.

Lemma login_passToken_is_serviceToken_witness :
  ∃ td v, fst (@login string cloud_no_cookies (fresh alice)) = Returned td ∧
          td !! "passToken" = Some v ∧
          td !! "serviceToken" = Some v.
Proof.
  exact (@login_passToken_is_serviceToken string cloud_no_cookies
           (fresh alice) _ (PyBool true) _ eq_refl eq_refl eq_refl
           eq_refl eq_refl).
Defined.

Lemma login_relays_tokens_witness :
  ∃ td, fst (@login string cloud_ok (fresh alice)) = Returned td ∧
        td !! "serviceToken" = Some (PyStr "svc-abc") ∧
        td !! "ssecurity" = Some (PyStr "sec-xyz").
Proof.
  exact (@login_relays_tokens string cloud_ok (fresh alice) _ (PyBool true) _
           "svc-abc" "sec-xyz" eq_refl eq_refl eq_refl
           eq_refl ltac:(discriminate) eq_refl ltac:(discriminate)).
Defined.

(** Users 12345 and 0 do not share a ["userId"] entry. *)
Lemma token_data_userId_inj_witness :
  token_data (signed_in (PyInt 12345) PyNone PyNone SessionNone
                (blank_client "alice" "secret")) !! "userId" ≠
  token_data (signed_in (PyInt 0) PyNone PyNone SessionNone
                (blank_client "bob" "hunter2")) !! "userId".
Proof.
  intros Heq.
  pose proof (token_data_userId_inj
                (signed_in (PyInt 12345) PyNone PyNone SessionNone
                   (blank_client "alice" "secret"))
                (signed_in (PyInt 0) PyNone PyNone SessionNone
                   (blank_client "bob" "hunter2"))
                12345 0 eq_refl eq_refl Heq) as Hz.
  discriminate Hz.
Defined.

Lemma get_devices_returns_cloud_list_witness :
  fst (@get_devices string cloud_two_devices None
         (snd (@login string cloud_two_devices (fresh alice)))) =
    Returned ["scale"; "band"].
Proof.
  exact (@get_devices_returns_cloud_list string cloud_two_devices
           (snd (@login string cloud_two_devices (fresh alice))) _ None
           ["scale"; "band"] _ eq_refl eq_refl).
Defined.

Lemma get_devices_log_counts_result_witness :
  ∃ l, fst (@get_devices string cloud_two_devices None
              (snd (@login string cloud_two_devices (fresh alice)))) =
         Returned l ∧
       logged (snd (@get_devices string cloud_two_devices None
                      (snd (@login string cloud_two_devices (fresh alice))))) =
         [(INFO, "Attempting login for alice in region cn");
          (INFO, "Login successful!");
          (INFO, "Retrieved tokens - userId: 12345");
          (INFO, "Retrieved " +:+ pretty (Z.of_nat (length l)) +:+
                 " devices")].
Proof.
  exact (@get_devices_log_counts_result string cloud_two_devices
           (snd (@login string cloud_two_devices (fresh alice))) _ None
           (Some ["scale"; "band"]) _ eq_refl eq_refl).
Defined.

Lemma get_devices_raises_only_witness :
  let w := snd (@login string cloud_devices_interrupted (fresh alice)) in
  (mc (this w) = None ∧
   KeyboardInterrupt = Exception "Not logged in - call login() first") ∨
  (is_Exception KeyboardInterrupt = false ∧
   ∃ m m', mc (this w) = Some m ∧
           @MiCloud_get_devices string cloud_devices_interrupted m
             (country_or (Some "de") (region (this w)))
             = (Raised KeyboardInterrupt, m')).
Proof.
  intros w.
  exact (@get_devices_raises_only string cloud_devices_interrupted w
           (Some "de") KeyboardInterrupt eq_refl).
Defined.

Lemma get_devices_passes_base_exception_witness :
  let w := snd (@login string cloud_devices_interrupted (fresh alice)) in
  fst (@get_devices string cloud_devices_interrupted None w) =
    Raised KeyboardInterrupt ∧
  logged (snd (@get_devices string cloud_devices_interrupted None w)) =
    logged w.
Proof.
  intros w.
  exact (@get_devices_passes_base_exception string cloud_devices_interrupted
           w _ None KeyboardInterrupt _ eq_refl eq_refl eq_refl).
Defined.

Lemma get_devices_uses_login_client_witness :
  let w := fresh bob in
  fst (@get_devices string cloud_two_devices None
         (snd (@login string cloud_two_devices w))) =
    Returned ["scale"; "band"] ∧
  is_Some (mc (this (snd (@get_devices string cloud_two_devices None
                            (snd (@login string cloud_two_devices w)))))).
Proof.
  intros w.
  destruct (@get_devices_uses_login_client string cloud_two_devices w
              _ (Returned (PyBool true)) _ None ["scale"; "band"] _
              eq_refl eq_refl eq_refl) as [Hl Hm].
  split; [exact Hl | rewrite Hm; eauto].
Defined.
